(** * Real-estate chaincode (chaincode.go): a shallow embedding and its properties

    The chaincode keeps three kinds of JSON documents (property, contract
    condition, contract) in the world state of a Hyperledger Fabric channel.
    [Invoke] receives a function name and a list of string arguments and
    routes them to [initProperty], [initConditon], [CreateContract],
    [transferProperty] or [readValue].

    The embedding follows chaincode.go function by function.  The world
    state is a finite map from keys to values; standard output (the
    [fmt.Println] calls) is a list of lines.  [strings.ToLower] and
    [encoding/json] are the functions of a library that the chaincode is
    defined over ([GoLibrary]); [strconv.Atoi] and the Fabric shim
    ([GetState], [PutState], [shim.Success], [shim.Error]) are modelled in
    the first part of the file. *)

From Stdlib Require Import ZArith Ascii DecimalString.
From stdpp Require Import gmap strings list fin_maps.

(** ** Go strings *)

(** A Go string is a sequence of bytes; [string] is a list of 8-bit
    characters. [len(s)] is [String.length s]. *)
Abbreviation len := String.length.

Module GoStrings.

Definition is_upper (c : ascii) : bool :=
  let n := nat_of_ascii c in (65 <=? n) && (n <=? 90).

(** What [strings.ToLower] does to one byte of an ASCII string: 'A'..'Z'
    are moved to 'a'..'z', every other byte is kept. *)
Definition lower_byte (c : ascii) : ascii :=
  if is_upper c then ascii_of_nat (nat_of_ascii c + 32) else c.

(** [strings.ToLower] on the strings all of whose bytes are below 128. *)
Fixpoint ToLower_ascii (s : string) : string :=
  match s with
  | EmptyString => EmptyString
  | String c s' => String (lower_byte c) (ToLower_ascii s')
  end.

(** All bytes of the string are below 128 ([utf8.RuneSelf]). *)
Fixpoint is_ascii (s : string) : bool :=
  match s with
  | EmptyString => true
  | String c s' => (nat_of_ascii c <? 128) && is_ascii s'
  end.

(** [strconv.Atoi]: an optional sign, then one or more decimal digits; the
    value has to fit the 64-bit [int]. [None] is the non-nil error. *)
Definition digit_of (c : ascii) : option Z :=
  let n := nat_of_ascii c in
  if (48 <=? n) && (n <=? 57) then Some (Z.of_nat (n - 48)) else None.

Fixpoint parse_digits (acc : Z) (s : string) : option Z :=
  match s with
  | EmptyString => Some acc
  | String c s' =>
      match digit_of c with
      | Some d => parse_digits (acc * 10 + d) s'
      | None => None
      end
  end.

Definition min_int : Z := - 2 ^ 63.
Definition max_int : Z := 2 ^ 63 - 1.

Definition Atoi (s : string) : option Z :=
  match s with
  | EmptyString => None
  | String c rest =>
      let neg := bool_decide (c = "-"%char) in
      let body := if bool_decide (c = "-"%char) || bool_decide (c = "+"%char)
                  then rest else s in
      match body with
      | EmptyString => None
      | _ =>
          match parse_digits 0 body with
          | Some n =>
              let v := if neg then (- n)%Z else n in
              if bool_decide (min_int ≤ v ≤ max_int)%Z then Some v else None
          | None => None
          end
      end
  end.

(** Substring test, used to say that a message names a string. *)
Definition contains (sub s : string) : bool :=
  match String.index 0 sub s with Some _ => true | None => false end.

End GoStrings.
Export GoStrings.

(** ** JSON text of ASCII strings *)

(** The writer and the reader of JSON string literals of the library on
    which the chaincode is run on ASCII arguments ([ascii_library] below).
    On ASCII strings they write and read what [encoding/json] does (Go
    before 1.22, which writes the bytes 08 and 0c as [\u0008] and
    [\u000c]); what [encoding/json] does outside ASCII (ill-formed UTF-8,
    U+2028, U+2029, escapes from [\u0080] on) is not theirs to say. *)

Module JSON.

Definition dquote : ascii := "034"%char.
Definition backslash : ascii := "092"%char.

Definition hex_digit (n : nat) : ascii :=
  if n <? 10 then ascii_of_nat (48 + n) else ascii_of_nat (87 + n).

Definition hex_value (c : ascii) : option nat :=
  let n := nat_of_ascii c in
  if (48 <=? n) && (n <=? 57) then Some (n - 48)
  else if (97 <=? n) && (n <=? 102) then Some (n - 87)
  else if (65 <=? n) && (n <=? 70) then Some (n - 55)
  else None.

(** What [json.Marshal] writes for one byte of an ASCII string: the
    two-character escapes for the quote, the backslash, LF, CR and TAB;
    [\u00XX] for the other control characters and for '<', '>' and '&'
    (HTML escaping is on in [Marshal]); the byte itself otherwise. A byte
    from 128 on, which no ASCII string has, is kept. *)
Definition escape_byte (c : ascii) : string :=
  let n := nat_of_ascii c in
  if bool_decide (c = dquote) then String backslash (String dquote "")
  else if bool_decide (c = backslash) then String backslash (String backslash "")
  else if n =? 10 then String backslash "n"
  else if n =? 13 then String backslash "r"
  else if n =? 9 then String backslash "t"
  else if (n <? 32) || (n =? 60) || (n =? 62) || (n =? 38) then
    String backslash
      (String "u" (String "0" (String "0"
         (String (hex_digit (n / 16)) (String (hex_digit (n mod 16)) "")))))
  else String c "".

Fixpoint escape (s : string) : string :=
  match s with
  | EmptyString => EmptyString
  | String c s' => escape_byte c +:+ escape s'
  end.

(** A JSON string literal. *)
Definition quote (s : string) : string :=
  String dquote (escape s +:+ String dquote "").

(** A Go [int] in decimal. *)
Definition itoa (z : Z) : string := NilZero.string_of_int (Z.to_int z).

(** The character a two-character escape stands for, as the decoder of
    [encoding/json] reads it. *)
Definition simple_escape (e : ascii) : option ascii :=
  let n := nat_of_ascii e in
  if bool_decide (e = dquote) then Some dquote
  else if bool_decide (e = backslash) then Some backslash
  else if n =? 47 then Some "/"%char
  else if n =? 98 then Some "008"%char
  else if n =? 102 then Some "012"%char
  else if n =? 110 then Some "010"%char
  else if n =? 114 then Some "013"%char
  else if n =? 116 then Some "009"%char
  else None.

(** Reads a string literal after its opening quote: the decoded string and
    the input left after the closing quote. A raw control character is an
    error, as in Go. Of the [\uXXXX] escapes those of an ASCII character
    (below 0080) are read; the others, which [escape] never writes, are
    refused. *)
Fixpoint unquote_body (s : string) : option (string * string) :=
  match s with
  | EmptyString => None
  | String c rest =>
      if bool_decide (c = dquote) then Some (EmptyString, rest)
      else if bool_decide (c = backslash) then
        match rest with
        | String e rest1 =>
            if bool_decide (e = "u"%char) then
              match rest1 with
              | String h3 (String h2 (String h1 (String h0 rest2))) =>
                  match hex_value h3, hex_value h2, hex_value h1, hex_value h0 with
                  | Some 0, Some 0, Some a, Some b =>
                      if a <? 8 then
                        match unquote_body rest2 with
                        | Some (r, tl) => Some (String (ascii_of_nat (a * 16 + b)) r, tl)
                        | None => None
                        end
                      else None
                  | _, _, _, _ => None
                  end
              | _ => None
              end
            else
              match simple_escape e with
              | Some b =>
                  match unquote_body rest1 with
                  | Some (r, tl) => Some (String b r, tl)
                  | None => None
                  end
              | None => None
              end
        | EmptyString => None
        end
      else if nat_of_ascii c <? 32 then None
      else
        match unquote_body rest with
        | Some (r, tl) => Some (String c r, tl)
        | None => None
        end
  end.

Definition unquote (s : string) : option (string * string) :=
  match s with
  | String c rest => if bool_decide (c = dquote) then unquote_body rest else None
  | EmptyString => None
  end.

(** Reads the literal text [lit] at the head of the input. *)
Fixpoint expect (lit s : string) : option string :=
  match lit with
  | EmptyString => Some s
  | String c lit' =>
      match s with
      | String d s' => if bool_decide (c = d) then expect lit' s' else None
      | EmptyString => None
      end
  end.

End JSON.

(** ** The documents *)

(** The struct [property]. The struct declares [Property_num] an [int]; the
    one place that builds a property, [initProperty], stores the lower-cased
    first argument there, so the field holds that string. *)
Record property := Property {
  ObjectType : string;     (* docType *)
  Property_num : string;   (* property_num *)
  Name : string;           (* name *)
  Address : string;        (* address *)
  Owner : string           (* owner *)
}.

(** The struct [conditionOfContract]; its [ObjectType] and [Property_num]
    are [cObjectType] and [cProperty_num] here, the names being taken by
    [property]. The two number fields hold the strings the code stores in
    them, [Deposit] the [int] that [strconv.Atoi] returns. *)
Record conditionOfContract := ConditionOfContract {
  cObjectType : string;    (* docType *)
  Condition_num : string;  (* condition_num *)
  cProperty_num : string;  (* property_num *)
  Seller : string;         (* seller *)
  Buyer : string;          (* buyer *)
  Deposit : Z              (* deposit *)
}.

(** [propertyToTransfer.Owner = newOwner] *)
Definition set_Owner (p : property) (newOwner : string) : property :=
  {| ObjectType := ObjectType p; Property_num := Property_num p;
     Name := Name p; Address := Address p; Owner := newOwner |}.

(** The strings of a property. *)
Definition property_strings (p : property) : list string :=
  [ObjectType p; Property_num p; Name p; Address p; Owner p].

Module Marshal.
Import JSON.

(** One member of a JSON object: the quoted field tag, a colon, the value. *)
Definition member (tag value : string) : string :=
  quote tag +:+ String ":" value.

(** The text of a [property]: the members in the order of the struct's
    fields, under their json tags. *)
Definition property_text (p : property) : string :=
  String "{"
    (member "docType" (quote (ObjectType p)) +:+ String ","
    (member "property_num" (quote (Property_num p)) +:+ String ","
    (member "name" (quote (Name p)) +:+ String ","
    (member "address" (quote (Address p)) +:+ String ","
    (member "owner" (quote (Owner p)) +:+ "}"))))).

(** The text of a [conditionOfContract]. *)
Definition condition_text (c : conditionOfContract) : string :=
  String "{"
    (member "docType" (quote (cObjectType c)) +:+ String ","
    (member "condition_num" (quote (Condition_num c)) +:+ String ","
    (member "property_num" (quote (cProperty_num c)) +:+ String ","
    (member "seller" (quote (Seller c)) +:+ String ","
    (member "buyer" (quote (Buyer c)) +:+ String ","
    (member "deposit" (itoa (Deposit c)) +:+ "}")))))).

(** Reads one member whose value is a string literal. *)
Definition read_member (tag s : string) : option (string * string) :=
  s1 ← expect (quote tag +:+ ":") s; unquote s1.

(** Reads the text that [property_text] writes: five members in the order
    of the struct, no white space. *)
Definition read_property (b : string) : option property :=
  s0 ← expect "{" b;
  '(docType, s1) ← read_member "docType" s0;
  s1 ← expect "," s1;
  '(property_num, s2) ← read_member "property_num" s1;
  s2 ← expect "," s2;
  '(name, s3) ← read_member "name" s2;
  s3 ← expect "," s3;
  '(address, s4) ← read_member "address" s3;
  s4 ← expect "," s4;
  '(owner, s5) ← read_member "owner" s4;
  s5 ← expect "}" s5;
  if bool_decide (s5 = "") then
    Some {| ObjectType := docType; Property_num := property_num;
            Name := name; Address := address; Owner := owner |}
  else None.

End Marshal.

(** ** The shim *)

(** [pb.Response]: [shim.Success] with its payload ([None] is [nil]) or
    [shim.Error] with its message. *)
Inductive Response :=
| Success (payload : option string)
| Error (message : string).

(** What a call on the stub returns: a value and a nil error, or an error. *)
Inductive result (A : Type) :=
| Ok (a : A)
| Err (e : string).
Arguments Ok {A} a.
Arguments Err {A} e.

(** What an invocation acts on: the world state of the ledger, a map from
    keys to the bytes stored under them, and standard output, one entry per
    [fmt.Println]. *)
Record world := World {
  State : gmap string string;
  Stdout : list string
}.

(** [stub.GetState]: the value under the key, [None] ([nil]) when there is
    none. The world state answers every read. *)
Definition GetState (key : string) (w : world) : result (option string) :=
  Ok (State w !! key).

(** [stub.PutState]: stores the value under the key, replacing what was
    there. The world state accepts every write. *)
Definition PutState (key value : string) (w : world) : result world :=
  Ok {| State := <[key := value]> (State w); Stdout := Stdout w |}.

(** [fmt.Println] of one string. *)
Definition Println (line : string) (w : world) : world :=
  {| State := State w; Stdout := Stdout w ++ [line] |}.

(** [args[i]]; every use below follows a check of [len(args)]. *)
Definition arg (args : list string) (i : nat) : string := nth i args "".

(** [fmt.Println] of three operands: they are printed with a space between
    them. *)
Definition Println3 (a b c : string) (w : world) : world :=
  Println (a +:+ " " +:+ b +:+ " " +:+ c) w.

(** ** The Go library *)

(** The chaincode calls [strings.ToLower], [json.Marshal] and
    [json.Unmarshal]. Their tables and their grammar are not embedded: the
    chaincode is defined over any library that has these functions and keeps
    the laws below, which the Go library keeps, so what is proved of the
    chaincode is proved for Go's functions, on every string.

    [ValidString] is [utf8.ValidString]. [json_error] is the text of the
    error that [json.Unmarshal] returns on the bytes it refuses.

    Modelled from the spec: chaincode.go decodes the stored bytes into a
    [marble], a type it does not declare. The spec has [transferProperty]
    fetch the existing Property record and decode it, so the target of
    [json.Unmarshal] is a [property]; [None] is the non-nil error.

    The laws: on a string all of whose bytes are ASCII, [ToLower] is
    [ToLower_ascii]; an ASCII string is valid UTF-8; what [ToLower] returns
    is valid UTF-8 (ill-formed bytes come out as U+FFFD); the strings that
    [json.Unmarshal] decodes are valid UTF-8 (for the same reason); and a
    property whose strings are valid UTF-8 is decoded from its own JSON
    text. *)
Class GoLibrary := {
  ToLower : string → string;
  ValidString : string → Prop;
  json_Marshal_property : property → string;
  json_Marshal_condition : conditionOfContract → string;
  json_Unmarshal_marble : string → option property;
  json_error : string → string;
  ToLower_on_ascii (s : string) :
    is_ascii s = true → ToLower s = ToLower_ascii s;
  ValidString_ascii (s : string) :
    is_ascii s = true → ValidString s;
  ValidString_ToLower (s : string) :
    ValidString (ToLower s);
  json_Unmarshal_valid (b : string) (p : property) :
    json_Unmarshal_marble b = Some p → Forall ValidString (property_strings p);
  json_Unmarshal_Marshal (p : property) :
    Forall ValidString (property_strings p) →
    json_Unmarshal_marble (json_Marshal_property p) = Some p
}.

(** ** The chaincode *)

Section Chaincode.

Context {go : GoLibrary}.

(** [json.Marshal] returns a nil error on the structs above (strings and an
    int), so the branch [if err != nil] that follows each call of it is
    never taken and is left out of the definitions below. *)

(** initProperty (chaincode.go, lines 162-207). *)
Definition initProperty (args : list string) (w : world) : Response * world :=
  (* propertyNum, propertyName, address, owner *)
  if bool_decide (length args ≠ 4) then
    (Error "Incorrect number of arguments. Expecting 4", w)
  else
  (* ==== Input sanitation ==== *)
  let w := Println "- start init marble" w in
  if bool_decide (len (arg args 0) ≤ 0) then
    (Error "1st argument must be a non-empty string", w)
  else if bool_decide (len (arg args 1) ≤ 0) then
    (Error "2nd argument must be a non-empty string", w)
  else if bool_decide (len (arg args 2) ≤ 0) then
    (Error "3rd argument must be a non-empty string", w)
  else if bool_decide (len (arg args 3) ≤ 0) then
    (Error "4th argument must be a non-empty string", w)
  else
  (* property *)
  let propertyNum := ToLower (arg args 0) in
  let propertyName := ToLower (arg args 1) in
  let address := ToLower (arg args 2) in
  let owner := ToLower (arg args 3) in
  (* ==== Create property object and marshal to JSON ==== *)
  let objectType := "property" in
  let property := Property objectType propertyNum propertyName address owner in
  let propertyJSONasBytes := json_Marshal_property property in
  (* === Save object to state === *)
  match PutState propertyNum propertyJSONasBytes w with
  | Err e => (Error e, w)
  | Ok w =>
      (* ==== Return success ==== *)
      let w := Println "- end init Property" w in
      (Success None, w)
  end.

(** initConditon (lines 212-264). The source does not close the brace of
    [if err != nil] after [json.Marshal] (line 252); the statements after it
    are read at the level of the function body, where their indentation and
    [initProperty] have them. *)
Definition initConditon (args : list string) (w : world) : Response * world :=
  (* conditionNum, propertyNum, seller, buyer, deposit *)
  if bool_decide (length args ≠ 5) then
    (Error "Incorrect number of arguments. Expecting 5", w)
  else
  (* ==== Input sanitation ==== *)
  let w := Println "- start init condition" w in
  if bool_decide (len (arg args 0) ≤ 0) then
    (Error "1st argument must be a non-empty string", w)
  else if bool_decide (len (arg args 1) ≤ 0) then
    (Error "2nd argument must be a non-empty string", w)
  else if bool_decide (len (arg args 2) ≤ 0) then
    (Error "3rd argument must be a non-empty string", w)
  else if bool_decide (len (arg args 3) ≤ 0) then
    (Error "4th argument must be a non-empty string", w)
  else if bool_decide (len (arg args 4) ≤ 0) then
    (Error "5th argument must be a non-empty string", w)
  else
  (* condition *)
  let conditionNum := ToLower (arg args 0) in
  let propertyNum := ToLower (arg args 1) in
  let seller := ToLower (arg args 2) in
  let buyer := ToLower (arg args 3) in
  match Atoi (arg args 4) with
  | None => (Error "5th argument must be a numeric string", w)
  | Some deposit =>
      (* ==== Create condition object and marshal to JSON ==== *)
      let objectType := "condition" in
      let condition :=
        ConditionOfContract objectType conditionNum propertyNum seller buyer deposit in
      let conditionJSONasBytes := json_Marshal_condition condition in
      (* === Save object to state === *)
      match PutState conditionNum conditionJSONasBytes w with
      | Err e => (Error e, w)
      | Ok w =>
          (* ==== Return success ==== *)
          let w := Println "- end init contract condition" w in
          (Success None, w)
      end
  end.

(** transferProperty (lines 335-369). *)
Definition transferProperty (args : list string) (w : world) : Response * world :=
  (*   0       1    *)
  (* "name", "bob"  *)
  if bool_decide (length args < 2) then
    (Error "Incorrect number of arguments. Expecting 2", w)
  else
  let propertyNum := arg args 0 in
  let newOwner := ToLower (arg args 1) in
  let w := Println3 "- start transferProperty " propertyNum newOwner w in
  match GetState propertyNum w with
  | Err e => (Error ("Failed to get property:" +:+ e), w)
  | Ok None => (Error "Property does not exist", w)
  | Ok (Some propertyAsBytes) =>
      match json_Unmarshal_marble propertyAsBytes with (* unmarshal it aka JSON.parse() *)
      | None => (Error (json_error propertyAsBytes), w)
      | Some propertyToTransfer =>
          let propertyToTransfer := set_Owner propertyToTransfer newOwner in (* change the owner *)
          let propertyJSONasBytes := json_Marshal_property propertyToTransfer in
          match PutState propertyNum propertyJSONasBytes w with (* rewrite the property *)
          | Err e => (Error e, w)
          | Ok w =>
              let w := Println "- end transferProperty (success)" w in
              (Success None, w)
          end
      end
  end.

(** [readValue], [CreateContract] and with them [Invoke] use identifiers
    that chaincode.go declares nowhere; they are parameters of the
    embedding. *)
Section Undeclared.

(** [name], in the two error messages of [readValue]. *)
Variable name : string.

(** [conditionNum], [seller], [buyer] and [deposit], in the struct literal
    of [CreateContract]. *)
Variables (conditionNum seller buyer : string) (deposit : Z).

(** CreateContract (lines 269-306). The document it builds is a
    [conditionOfContract] whose docType is "contract"; [args[1]] is bound
    to [propertyNum]. The brace of [if err != nil] after [json.Marshal]
    is missing here too (line 294) and read as in [initConditon]. *)
Definition CreateContract (args : list string) (w : world) : Response * world :=
  (* contractNum, conditionNum *)
  if bool_decide (length args ≠ 2) then
    (Error "Incorrect number of arguments. Expecting 2", w)
  else
  (* ==== Input sanitation ==== *)
  let w := Println "- start init condition" w in
  if bool_decide (len (arg args 0) ≤ 0) then
    (Error "1st argument must be a non-empty string", w)
  else if bool_decide (len (arg args 1) ≤ 0) then
    (Error "2nd argument must be a non-empty string", w)
  else
  (* contract *)
  let contractNum := ToLower (arg args 0) in
  let propertyNum := ToLower (arg args 1) in
  (* ==== Create contract object and marshal to JSON ==== *)
  let objectType := "contract" in
  let contract :=
    ConditionOfContract objectType conditionNum propertyNum seller buyer deposit in
  let contractJSONasBytes := json_Marshal_condition contract in
  (* === Save object to state === *)
  match PutState contractNum contractJSONasBytes w with
  | Err e => (Error e, w)
  | Ok w =>
      (* ==== Return success ==== *)
      let w := Println "- end create contract" w in
      (Success None, w)
  end.

(** The JSON text of the two error messages of [readValue]:
    an object with the one member "Error". *)
Definition jsonResp (text : string) : string :=
  let dq := String JSON.dquote "" in
  "{" +:+ dq +:+ "Error" +:+ dq +:+ ":" +:+ dq +:+ text +:+ name +:+ dq +:+ "}".

(** readValue (lines 311-330): read a property, condition, contract from
    chaincode state. *)
Definition readValue (args : list string) (w : world) : Response * world :=
  if bool_decide (length args ≠ 1) then
    (Error "Incorrect number of arguments. Expecting number of the value to query", w)
  else
  let key := arg args 0 in
  match GetState key w with
  | Err e => (Error (jsonResp "Failed to get value for "), w)
  | Ok None => (Error (jsonResp "Value does not exist: "), w)
  | Ok (Some valAsbytes) => (Success (Some valAsbytes), w)
  end.

(** Invoke (lines 138-157), on the function name and the parameters that
    [stub.GetFunctionAndParameters] returns. *)
Definition Invoke (function : string) (args : list string) (w : world)
  : Response * world :=
  let w := Println ("invoke is running " +:+ function) w in
  (* Handle different functions *)
  if bool_decide (function = "initProperty") then initProperty args w
  else if bool_decide (function = "initConditon") then initConditon args w
  else if bool_decide (function = "CreateContract") then CreateContract args w
  else if bool_decide (function = "transferProperty") then transferProperty args w
  else if bool_decide (function = "readValue") then readValue args w
  else
  let w := Println ("invoke did not find func: " +:+ function) w in (* error *)
  (Error "Received unknown function invocation", w).

End Undeclared.

End Chaincode.

(** ** Vocabulary of the statements *)

(** The messages with which the operations refuse their arguments: a wrong
    number of them, an empty one, a deposit that is not a number. *)
Definition validation_messages : list string :=
  [ "Incorrect number of arguments. Expecting 4";
    "Incorrect number of arguments. Expecting 5";
    "Incorrect number of arguments. Expecting 2";
    "Incorrect number of arguments. Expecting number of the value to query";
    "1st argument must be a non-empty string";
    "2nd argument must be a non-empty string";
    "3rd argument must be a non-empty string";
    "4th argument must be a non-empty string";
    "5th argument must be a non-empty string";
    "5th argument must be a numeric string" ].

Definition ValidationError (r : Response) : Prop :=
  ∃ m, r = Error m ∧ m ∈ validation_messages.

(** Among the first [n] arguments one is the empty string. *)
Definition some_empty (n : nat) (args : list string) : Prop :=
  ∃ i, i < n ∧ arg args i = "".

(** The function names that [Invoke] compares with. *)
Definition function_names : list string :=
  ["initProperty"; "initConditon"; "CreateContract"; "transferProperty"; "readValue"].

(** A world whose ledger holds the property p1 of alice. *)
Definition alice_p1 : property := Property "property" "p1" "islab" "seoul" "alice".
Definition world_p1 {go : GoLibrary} : world :=
  World {[ "p1" := json_Marshal_property alice_p1 ]} [].

(** ** The chaincode as a transition system *)

(** Init (chaincode.go, lines 132-134): initializes chaincode; it does
    nothing and succeeds. *)
Definition Init (w : world) : Response * world := (Success None, w).

Section Transitions.

Context {go : GoLibrary}.

(** What one invocation does to a ledger [st], read off the return
    statements of the five operations: an error, a read, the creation of a
    document under the lower-cased first argument, or the update of the
    document stored under the first argument. *)
Inductive effect (function : string) (args : list string) (st : gmap string string)
  : Response → gmap string string → Prop :=
| effect_error (m : string) :
    effect function args st (Error m) st
| effect_read (v : string) :
    function = "readValue" → length args = 1 →
    st !! arg args 0 = Some v →
    effect function args st (Success (Some v)) st
| effect_create (v : string) :
    function ∈ ["initProperty"; "initConditon"; "CreateContract"] →
    arg args 0 ≠ "" →
    effect function args st (Success None) (<[ToLower (arg args 0) := v]> st)
| effect_update (v : string) :
    function = "transferProperty" →
    is_Some (st !! arg args 0) →
    effect function args st (Success None) (<[arg args 0 := v]> st).

(** The worlds that the chaincode can be in: the one [Init] leaves on an
    empty ledger, and those that an invocation leaves, whatever its function
    name and its arguments. *)
Inductive reachable : world → Prop :=
| reachable_Init : reachable (Init (World ∅ [])).2
| reachable_Invoke (name conditionNum seller buyer : string) (deposit : Z)
    (function : string) (args : list string) (w : world) :
    reachable w →
    reachable (Invoke name conditionNum seller buyer deposit function args w).2.

End Transitions.

(** The message with which a create operation refuses its argument number
    [i] (counted from 0) when it is empty. *)
Definition empty_argument_message (i : nat) : string :=
  nth i [ "1st argument must be a non-empty string";
          "2nd argument must be a non-empty string";
          "3rd argument must be a non-empty string";
          "4th argument must be a non-empty string";
          "5th argument must be a non-empty string" ] "".

(** ** The router of the earlier version (src/unnamed/part_000) *)

Module Part000.

(** The names the router of part_000 compares with, and the names of the
    operations that part_000 declares. *)
Definition routed_names : list string :=
  ["initMarble"; "transferMarble"; "readMarble"].
Definition declared_operations : list string :=
  ["initContract"; "readProperty"; "transferProperty"].

Section Handlers.

(** The methods [initMarble], [transferMarble] and [readMarble] that the
    router calls are declared nowhere; they are parameters. *)
Variables initMarble transferMarble readMarble :
  list string → world → Response * world.

(** Invoke (part_000, lines 138-153). *)
Definition Invoke (function : string) (args : list string) (w : world)
  : Response * world :=
  let w := Println ("invoke is running " +:+ function) w in
  (* Handle different functions *)
  if bool_decide (function = "initMarble") then initMarble args w
  else if bool_decide (function = "transferMarble") then transferMarble args w
  else if bool_decide (function = "readMarble") then readMarble args w
  else
  let w := Println ("invoke did not find func: " +:+ function) w in (* error *)
  (Error "Received unknown function invocation", w).

End Handlers.

End Part000.

(** * Properties *)

(** ** Strings *)

Lemma append_assoc (s t u : string) : (s +:+ t) +:+ u = s +:+ (t +:+ u).
Proof. induction s as [|c s IH]; [reflexivity |]. exact (f_equal (String c) IH). Qed.

Lemma len_le_0 (s : string) : len s ≤ 0 ↔ s = "".
Proof. destruct s; simpl; split; intros H; try done; lia. Qed.

Lemma ToLower_empty {go : GoLibrary} : ToLower "" = "".
Proof. now rewrite ToLower_on_ascii. Qed.

(** ** The JSON text of a property is read back as that property *)

Module JSONFacts.
Import JSON Marshal.

Lemma unquote_body_escape_byte (c : ascii) (t : string) :
  unquote_body (escape_byte c +:+ t) =
  match unquote_body t with
  | Some (r, tl) => Some (String c r, tl)
  | None => None
  end.
Proof. destruct c as [[] [] [] [] [] [] [] []]; reflexivity. Qed.

Lemma unquote_body_escape (s rest : string) :
  unquote_body (escape s +:+ String dquote rest) = Some (s, rest).
Proof.
  induction s as [|c s IH]; simpl.
  - reflexivity.
  - now rewrite append_assoc, unquote_body_escape_byte, IH.
Qed.

Lemma unquote_quote (s rest : string) :
  unquote (quote s +:+ rest) = Some (s, rest).
Proof.
  unfold quote, unquote. simpl.
  rewrite append_assoc. simpl. apply unquote_body_escape.
Qed.

Lemma expect_append (lit s : string) : expect lit (lit +:+ s) = Some s.
Proof.
  induction lit as [|c lit IH]; simpl; [reflexivity |].
  now rewrite bool_decide_eq_true_2.
Qed.

Lemma expect_char (c : ascii) (s : string) :
  expect (String c "") (String c s) = Some s.
Proof. apply (expect_append (String c "") s). Qed.

Lemma read_member_member (tag v rest : string) :
  read_member tag (member tag (quote v) +:+ rest) = Some (v, rest).
Proof.
  unfold read_member, member.
  replace ((quote tag +:+ String ":" (quote v)) +:+ rest)
    with ((quote tag +:+ ":") +:+ (quote v +:+ rest))
    by now rewrite !append_assoc.
  rewrite expect_append. simpl. apply unquote_quote.
Qed.

End JSONFacts.

Lemma read_property_text (p : property) :
  Marshal.read_property (Marshal.property_text p) = Some p.
Proof.
  destruct p as [t n a b o].
  unfold Marshal.read_property, Marshal.property_text.
  cbn [ObjectType Property_num Name Address Owner].
  rewrite JSONFacts.expect_char. cbn [mbind option_bind].
  repeat (rewrite JSONFacts.read_member_member; cbn [mbind option_bind];
          rewrite JSONFacts.expect_char; cbn [mbind option_bind]).
  reflexivity.
Qed.

(** ** A library for ASCII arguments *)

(** The library on which the chaincode is run on ASCII arguments: it
    lower-cases 'A'..'Z' and writes and reads JSON text as above. It keeps
    the laws, with every string taken as valid. *)
#[global] Instance ascii_library : GoLibrary := {|
  ToLower := ToLower_ascii;
  ValidString := λ _, True;
  json_Marshal_property := Marshal.property_text;
  json_Marshal_condition := Marshal.condition_text;
  json_Unmarshal_marble := Marshal.read_property;
  json_error := λ propertyAsBytes, "invalid character in " +:+ propertyAsBytes;
  ToLower_on_ascii := λ _ _, eq_refl;
  ValidString_ascii := λ _ _, I;
  ValidString_ToLower := λ _, I;
  json_Unmarshal_valid := λ _ p _, Forall_true _ _ (λ _, I);
  json_Unmarshal_Marshal := λ p _, read_property_text p
|}.

(** ** Valid strings *)

Lemma valid_lowered {go : GoLibrary} (a b c d : string) :
  Forall ValidString
    (property_strings
       (Property "property" (ToLower a) (ToLower b) (ToLower c) (ToLower d))).
Proof.
  repeat constructor; first [apply ValidString_ToLower | now apply ValidString_ascii].
Qed.

Lemma valid_new_owner {go : GoLibrary} (bytes : string) (p : property) (o : string) :
  json_Unmarshal_marble bytes = Some p → ValidString o →
  Forall ValidString
    (property_strings
       (Property (ObjectType p) (Property_num p) (Name p) (Address p) o)).
Proof.
  intros Hp Ho. apply json_Unmarshal_valid in Hp. unfold property_strings in *.
  cbn. repeat (apply Forall_cons in Hp as [? Hp]). repeat constructor; assumption.
Qed.

(** ** The operations, case by case *)

Ltac guard_false :=
  rewrite bool_decide_eq_false_2 by (rewrite ?len_le_0; simpl; first [done | lia]).

Ltac in_messages :=
  unfold validation_messages; repeat constructor.

Lemma Println_State (line : string) (w : world) : State (Println line w) = State w.
Proof. reflexivity. Qed.

Lemma initProperty_valid {go : GoLibrary} (a b c d : string) (w : world) :
  a ≠ "" → b ≠ "" → c ≠ "" → d ≠ "" →
  ∃ w', initProperty [a; b; c; d] w = (Success None, w') ∧
    State w' =
      <[ToLower a :=
          json_Marshal_property
            (Property "property" (ToLower a) (ToLower b) (ToLower c) (ToLower d))]>
        (State w).
Proof.
  intros Ha Hb Hc Hd. unfold initProperty, arg. simpl nth.
  do 5 guard_false. simpl. eauto.
Qed.

Lemma initProperty_invalid {go : GoLibrary} (args : list string) (w : world) :
  length args ≠ 4 ∨ some_empty 4 args →
  ∃ m w', initProperty args w = (Error m, w') ∧
    m ∈ validation_messages ∧ State w' = State w.
Proof.
  intros H. unfold initProperty.
  repeat case_bool_decide;
    try (eexists _, _; split; [reflexivity | split; [in_messages | reflexivity]]).
  exfalso. destruct H as [H | (i & Hi & E)]; [done |].
  apply len_le_0 in E.
  do 4 (destruct i as [|i]; [done |]). lia.
Qed.

Lemma initConditon_valid {go : GoLibrary} (a b c d e : string) (deposit : Z) (w : world) :
  a ≠ "" → b ≠ "" → c ≠ "" → d ≠ "" → Atoi e = Some deposit →
  ∃ w', initConditon [a; b; c; d; e] w = (Success None, w') ∧
    State w' =
      <[ToLower a :=
          json_Marshal_condition
            (ConditionOfContract "condition" (ToLower a) (ToLower b) (ToLower c)
               (ToLower d) deposit)]>
        (State w).
Proof.
  intros Ha Hb Hc Hd He.
  assert (e ≠ "") by (intros ->; discriminate).
  unfold initConditon, arg. simpl nth.
  do 6 guard_false. rewrite He. simpl. eauto.
Qed.

Lemma initConditon_invalid {go : GoLibrary} (args : list string) (w : world) :
  length args ≠ 5 ∨ some_empty 5 args ∨ Atoi (arg args 4) = None →
  ∃ m w', initConditon args w = (Error m, w') ∧
    m ∈ validation_messages ∧ State w' = State w.
Proof.
  intros H. unfold initConditon.
  repeat case_bool_decide;
    try (eexists _, _; split; [reflexivity | split; [in_messages | reflexivity]]).
  destruct (Atoi (arg args 4)) as [deposit|] eqn:E;
    try (eexists _, _; split; [reflexivity | split; [in_messages | reflexivity]]).
  exfalso. destruct H as [H | [(i & Hi & Ei) | H]]; [done | | done].
  apply len_le_0 in Ei.
  do 5 (destruct i as [|i]; [done |]). lia.
Qed.

Lemma CreateContract_valid {go : GoLibrary} (conditionNum seller buyer : string) (deposit : Z)
    (a b : string) (w : world) :
  a ≠ "" → b ≠ "" →
  ∃ w', CreateContract conditionNum seller buyer deposit [a; b] w = (Success None, w') ∧
    State w' =
      <[ToLower a :=
          json_Marshal_condition
            (ConditionOfContract "contract" conditionNum (ToLower b) seller buyer deposit)]>
        (State w).
Proof.
  intros Ha Hb. unfold CreateContract, arg. simpl nth.
  do 3 guard_false. simpl. eauto.
Qed.

Lemma CreateContract_invalid {go : GoLibrary} (conditionNum seller buyer : string) (deposit : Z)
    (args : list string) (w : world) :
  length args ≠ 2 ∨ some_empty 2 args →
  ∃ m w', CreateContract conditionNum seller buyer deposit args w = (Error m, w') ∧
    m ∈ validation_messages ∧ State w' = State w.
Proof.
  intros H. unfold CreateContract.
  repeat case_bool_decide;
    try (eexists _, _; split; [reflexivity | split; [in_messages | reflexivity]]).
  exfalso. destruct H as [H | (i & Hi & E)]; [done |].
  apply len_le_0 in E.
  do 2 (destruct i as [|i]; [done |]). lia.
Qed.

Lemma transferProperty_too_few {go : GoLibrary} (args : list string) (w : world) :
  length args < 2 →
  transferProperty args w = (Error "Incorrect number of arguments. Expecting 2", w).
Proof. intros H. unfold transferProperty. now rewrite bool_decide_eq_true_2. Qed.

(** With two arguments or more, and a property under the key: the owner is
    replaced and the document written back. The arguments after the second
    are not looked at. *)
Lemma transferProperty_found {go : GoLibrary} (k o : string) (more : list string) (w : world)
    (bytes : string) (p : property) :
  State w !! k = Some bytes →
  json_Unmarshal_marble bytes = Some p →
  ∃ w', transferProperty (k :: o :: more) w = (Success None, w') ∧
    State w' = <[k := json_Marshal_property (set_Owner p (ToLower o))]> (State w).
Proof.
  intros Hk Hp. unfold transferProperty, arg. simpl nth.
  rewrite bool_decide_eq_false_2 by (simpl; lia).
  unfold GetState, Println3. rewrite Println_State, Hk, Hp. simpl. eauto.
Qed.

Lemma transferProperty_absent {go : GoLibrary} (k o : string) (more : list string) (w : world) :
  State w !! k = None →
  ∃ w', transferProperty (k :: o :: more) w = (Error "Property does not exist", w') ∧
    State w' = State w.
Proof.
  intros Hk. unfold transferProperty, arg. simpl nth.
  rewrite bool_decide_eq_false_2 by (simpl; lia).
  unfold GetState, Println3. rewrite Println_State, Hk. eauto.
Qed.

Lemma readValue_found (name key valAsbytes : string) (w : world) :
  State w !! key = Some valAsbytes →
  readValue name [key] w = (Success (Some valAsbytes), w).
Proof.
  intros H. unfold readValue, arg, GetState. simpl nth.
  rewrite bool_decide_eq_false_2 by (simpl; lia). now rewrite H.
Qed.

Lemma readValue_absent (name key : string) (w : world) :
  State w !! key = None →
  readValue name [key] w = (Error (jsonResp name "Value does not exist: "), w).
Proof.
  intros H. unfold readValue, arg, GetState. simpl nth.
  rewrite bool_decide_eq_false_2 by (simpl; lia). now rewrite H.
Qed.

(** The four operations other than [transferProperty] compare the number
    of their arguments with the number they expect by [!=]. *)
Lemma exact_arity_elsewhere {go : GoLibrary} (name conditionNum seller buyer : string) (deposit : Z)
    (args : list string) (w : world) :
  (length args ≠ 4 →
   initProperty args w = (Error "Incorrect number of arguments. Expecting 4", w)) ∧
  (length args ≠ 5 →
   initConditon args w = (Error "Incorrect number of arguments. Expecting 5", w)) ∧
  (length args ≠ 2 →
   CreateContract conditionNum seller buyer deposit args w =
     (Error "Incorrect number of arguments. Expecting 2", w)) ∧
  (length args ≠ 1 →
   readValue name args w =
     (Error "Incorrect number of arguments. Expecting number of the value to query", w)).
Proof.
  repeat split; intros H;
    unfold initProperty, initConditon, CreateContract, readValue;
    now rewrite bool_decide_eq_true_2.
Qed.

(** ** The claims *)

(** C1. After [initProperty] with four non-empty arguments (propertyNum,
    name, address, owner), [readValue] of the lower-cased propertyNum
    succeeds; the document it returns is that of the property whose
    property_num, name, address and owner are the lower-cased arguments and
    whose docType is "property". *)
Theorem C1_readValue_after_initProperty {go : GoLibrary}
    (name propertyNum propertyName address owner : string) (w : world) :
  propertyNum ≠ "" → propertyName ≠ "" → address ≠ "" → owner ≠ "" →
  let record :=
    Property "property" (ToLower propertyNum) (ToLower propertyName)
      (ToLower address) (ToLower owner) in
  ∃ w' valAsbytes,
    initProperty [propertyNum; propertyName; address; owner] w = (Success None, w') ∧
    readValue name [ToLower propertyNum] w' = (Success (Some valAsbytes), w') ∧
    valAsbytes = json_Marshal_property record ∧
    json_Unmarshal_marble valAsbytes = Some record.
Proof.
  intros H1 H2 H3 H4 record.
  destruct (initProperty_valid propertyNum propertyName address owner w)
    as (w' & Hinit & Hst); try done.
  exists w', (json_Marshal_property record). split; [exact Hinit |].
  split; [| split; [reflexivity | apply json_Unmarshal_Marshal, valid_lowered]].
  apply readValue_found. rewrite Hst. apply lookup_insert_eq.
Qed.

Lemma C1_witness :
  ∃ w' valAsbytes,
    initProperty ["P1"; "Islab"; "Seoul"; "Alice"] (World ∅ []) = (Success None, w') ∧
    readValue "p1" [ToLower "P1"] w' = (Success (Some valAsbytes), w') ∧
    valAsbytes = json_Marshal_property alice_p1 ∧
    json_Unmarshal_marble valAsbytes = Some alice_p1.
Proof.
  exact (C1_readValue_after_initProperty "p1" "P1" "Islab" "Seoul" "Alice" (World ∅ [])
           ltac:(discriminate) ltac:(discriminate) ltac:(discriminate)
           ltac:(discriminate)).
Defined.

(** C2, as the claim has it, fails: [transferProperty] with an empty new
    owner passes the checks and writes. *)
Lemma C2_counterexample :
  arg ["p1"; ""] 1 = "" ∧
  (transferProperty ["p1"; ""] world_p1).1 = Success None ∧
  State (transferProperty ["p1"; ""] world_p1).2 ≠ State world_p1.
Proof.
  split; [reflexivity |]. split; [vm_compute; reflexivity |].
  intros H. apply (f_equal (λ m : gmap string string, m !! "p1")) in H.
  vm_compute in H. discriminate.
Qed.

(** C2, amended. Each create operation ([initProperty], [initConditon],
    [CreateContract]) called with a wrong number of arguments or with an
    empty argument returns a validation error and leaves the ledger as it
    was: the checks come before the write. [transferProperty] checks that it
    has two arguments at least: with fewer it returns the arity error and
    leaves the ledger as it was; it does not look for empty arguments, and
    with an empty new owner it succeeds on a stored property. *)
Theorem C2_validation_before_write {go : GoLibrary}
    (conditionNum seller buyer : string) (deposit : Z)
    (args : list string) (w : world) :
  (length args ≠ 4 ∨ some_empty 4 args →
     ValidationError (initProperty args w).1 ∧
     State (initProperty args w).2 = State w) ∧
  (length args ≠ 5 ∨ some_empty 5 args →
     ValidationError (initConditon args w).1 ∧
     State (initConditon args w).2 = State w) ∧
  (length args ≠ 2 ∨ some_empty 2 args →
     ValidationError (CreateContract conditionNum seller buyer deposit args w).1 ∧
     State (CreateContract conditionNum seller buyer deposit args w).2 = State w) ∧
  (length args < 2 →
     ValidationError (transferProperty args w).1 ∧
     State (transferProperty args w).2 = State w) ∧
  (∀ k bytes p,
     State w !! k = Some bytes → json_Unmarshal_marble bytes = Some p →
     (transferProperty [k; ""] w).1 = Success None).
Proof.
  repeat split.
  - destruct (initProperty_invalid args w) as (m & w' & -> & Hm & _); [done |].
    exists m; done.
  - destruct (initProperty_invalid args w) as (m & w' & -> & _ & Hs); done.
  - destruct (initConditon_invalid args w) as (m & w' & -> & Hm & _); [tauto |].
    exists m; done.
  - destruct (initConditon_invalid args w) as (m & w' & -> & _ & Hs); [tauto | done].
  - destruct (CreateContract_invalid conditionNum seller buyer deposit args w)
      as (m & w' & -> & Hm & _); [done |].
    exists m; done.
  - destruct (CreateContract_invalid conditionNum seller buyer deposit args w)
      as (m & w' & -> & _ & Hs); done.
  - rewrite transferProperty_too_few by done.
    eexists; split; [reflexivity | in_messages].
  - rewrite transferProperty_too_few by done. reflexivity.
  - intros k bytes p Hk Hp.
    destruct (transferProperty_found k "" [] w bytes p Hk Hp) as (w' & -> & _).
    reflexivity.
Qed.

Lemma C2_witness :
  (ValidationError (initProperty ["p9"; ""; "seoul"; "alice"] world_p1).1 ∧
   State (initProperty ["p9"; ""; "seoul"; "alice"] world_p1).2 = State world_p1) ∧
  (ValidationError (initConditon ["p9"; ""; "seoul"; "alice"] world_p1).1 ∧
   State (initConditon ["p9"; ""; "seoul"; "alice"] world_p1).2 = State world_p1).
Proof.
  pose proof (C2_validation_before_write "c1" "alice" "bob" 0
                ["p9"; ""; "seoul"; "alice"] world_p1) as (H4 & H5 & _).
  split.
  - apply H4. right. exists 1. split; [lia | reflexivity].
  - apply H5. left. simpl. lia.
Defined.

(** C3. When a property is stored under the key propertyNum,
    [transferProperty] on (propertyNum, newOwner) decodes it, sets its owner
    to the lower-cased newOwner and writes it back under the same key, the
    fields docType, property_num, name and address being those it had; when
    nothing is stored under the key it returns the error "Property does not
    exist" and writes nothing. *)
Theorem C3_transferProperty {go : GoLibrary} (propertyNum newOwner : string) (w : world) :
  (∀ propertyAsBytes p,
     State w !! propertyNum = Some propertyAsBytes →
     json_Unmarshal_marble propertyAsBytes = Some p →
     let p' :=
       Property (ObjectType p) (Property_num p) (Name p) (Address p) (ToLower newOwner) in
     ∃ w', transferProperty [propertyNum; newOwner] w = (Success None, w') ∧
       State w' = <[propertyNum := json_Marshal_property p']> (State w) ∧
       json_Unmarshal_marble (json_Marshal_property p') = Some p') ∧
  (State w !! propertyNum = None →
     ∃ w', transferProperty [propertyNum; newOwner] w =
             (Error "Property does not exist", w') ∧
       State w' = State w).
Proof.
  split.
  - intros bytes p Hk Hp p'.
    destruct (transferProperty_found propertyNum newOwner [] w bytes p Hk Hp)
      as (w' & Hrun & Hst).
    exists w'. split; [exact Hrun |]. split; [exact Hst |].
    apply json_Unmarshal_Marshal.
    eapply valid_new_owner; [exact Hp | apply ValidString_ToLower].
  - apply transferProperty_absent.
Qed.

Lemma C3_witness :
  (∃ w', transferProperty ["p1"; "Bob"] world_p1 = (Success None, w') ∧
     State w' =
       <["p1" := json_Marshal_property (Property "property" "p1" "islab" "seoul" "bob")]>
         (State world_p1)) ∧
  (∃ w', transferProperty ["p2"; "Bob"] world_p1 = (Error "Property does not exist", w') ∧
     State w' = State world_p1).
Proof.
  split.
  - destruct (C3_transferProperty "p1" "Bob" world_p1) as [Hfound _].
    destruct (Hfound (json_Marshal_property alice_p1) alice_p1)
      as (w' & Hrun & Hst & _).
    + reflexivity.
    + exact (read_property_text alice_p1).
    + exists w'. split; [exact Hrun | exact Hst].
  - destruct (C3_transferProperty "p2" "Bob" world_p1) as [_ Habsent].
    apply Habsent. reflexivity.
Defined.

(** C4, as the claim has it, fails: [initProperty] on a key that holds a
    property succeeds and the property is replaced. *)
Lemma C4_counterexample :
  State world_p1 !! "p1" = Some (json_Marshal_property alice_p1) ∧
  (initProperty ["p1"; "annex"; "busan"; "carol"] world_p1).1 = Success None ∧
  State (initProperty ["p1"; "annex"; "busan"; "carol"] world_p1).2 !! "p1" =
    Some (json_Marshal_property (Property "property" "p1" "annex" "busan" "carol")) ∧
  json_Marshal_property (Property "property" "p1" "annex" "busan" "carol") ≠
    json_Marshal_property alice_p1.
Proof. repeat split; try (vm_compute; reflexivity). vm_compute. discriminate. Qed.

(** C4, amended. No create operation looks for a document under the key
    before it writes: with valid arguments [initProperty], [initConditon]
    and [CreateContract] succeed whatever the ledger holds, and the new
    document is stored under the lower-cased first argument in place of the
    one that may have been there. *)
Theorem C4_create_replaces {go : GoLibrary}
    (conditionNum seller buyer : string) (deposit : Z)
    (a b c d e : string) (n : Z) (w : world) :
  a ≠ "" → b ≠ "" →
  (c ≠ "" → d ≠ "" →
   ∃ w', initProperty [a; b; c; d] w = (Success None, w') ∧
     State w' !! ToLower a =
       Some (json_Marshal_property
               (Property "property" (ToLower a) (ToLower b) (ToLower c) (ToLower d)))) ∧
  (c ≠ "" → d ≠ "" → Atoi e = Some n →
   ∃ w', initConditon [a; b; c; d; e] w = (Success None, w') ∧
     State w' !! ToLower a =
       Some (json_Marshal_condition
               (ConditionOfContract "condition" (ToLower a) (ToLower b) (ToLower c)
                  (ToLower d) n))) ∧
  (∃ w', CreateContract conditionNum seller buyer deposit [a; b] w = (Success None, w') ∧
     State w' !! ToLower a =
       Some (json_Marshal_condition
               (ConditionOfContract "contract" conditionNum (ToLower b) seller buyer
                  deposit))).
Proof.
  intros Ha Hb. repeat split.
  - intros Hc Hd.
    destruct (initProperty_valid a b c d w) as (w' & Hrun & Hst); try done.
    exists w'. split; [exact Hrun |]. rewrite Hst. apply lookup_insert_eq.
  - intros Hc Hd He.
    destruct (initConditon_valid a b c d e n w) as (w' & Hrun & Hst); try done.
    exists w'. split; [exact Hrun |]. rewrite Hst. apply lookup_insert_eq.
  - destruct (CreateContract_valid conditionNum seller buyer deposit a b w)
      as (w' & Hrun & Hst); try done.
    exists w'. split; [exact Hrun |]. rewrite Hst. apply lookup_insert_eq.
Qed.

Lemma C4_witness :
  State world_p1 !! "p1" = Some (json_Marshal_property alice_p1) ∧
  ∃ w', initProperty ["P1"; "Annex"; "Busan"; "Carol"] world_p1 = (Success None, w') ∧
    State w' !! "p1" =
      Some (json_Marshal_property (Property "property" "p1" "annex" "busan" "carol")).
Proof.
  split; [reflexivity |].
  destruct (C4_create_replaces "c1" "alice" "bob" 0 "P1" "Annex" "Busan" "Carol"
              "5" 5 world_p1) as (Hinit & _); try discriminate.
  apply Hinit; discriminate.
Defined.

(** C5. The check of the number of arguments is not an equality in
    [transferProperty]: called with three arguments it does not return the
    arity error, it transfers the property. *)
Theorem C5_transferProperty_three_arguments :
  length ["p1"; "bob"; "extra"] ≠ 2 ∧
  (transferProperty ["p1"; "bob"; "extra"] world_p1).1 = Success None ∧
  State (transferProperty ["p1"; "bob"; "extra"] world_p1).2 !! "p1" =
    Some (json_Marshal_property (Property "property" "p1" "islab" "seoul" "bob")).
Proof. repeat split; try (vm_compute; reflexivity). simpl. lia. Qed.

(** C10. When a property is stored under the key k, [transferProperty] on
    the two arguments k and the empty string succeeds and writes the
    property back with the empty string as its owner: the new owner is not
    checked for emptiness. *)
Theorem C10_transferProperty_empty_owner {go : GoLibrary} (k : string) (w : world)
    (propertyAsBytes : string) (p : property) :
  State w !! k = Some propertyAsBytes →
  json_Unmarshal_marble propertyAsBytes = Some p →
  let p' := Property (ObjectType p) (Property_num p) (Name p) (Address p) "" in
  ∃ w', transferProperty [k; ""] w = (Success None, w') ∧
    State w' = <[k := json_Marshal_property p']> (State w) ∧
    json_Unmarshal_marble (json_Marshal_property p') = Some p' ∧
    Owner p' = "".
Proof.
  intros Hk Hp p'.
  destruct (transferProperty_found k "" [] w propertyAsBytes p Hk Hp)
    as (w' & Hrun & Hst).
  rewrite ToLower_empty in Hst.
  exists w'. split; [exact Hrun |]. split; [exact Hst |].
  split; [| reflexivity]. apply json_Unmarshal_Marshal.
  eapply valid_new_owner; [exact Hp | now apply ValidString_ascii].
Qed.

Lemma C10_witness :
  ∃ w', transferProperty ["p1"; ""] world_p1 = (Success None, w') ∧
    State w' =
      <["p1" := json_Marshal_property (Property "property" "p1" "islab" "seoul" "")]>
        (State world_p1).
Proof.
  destruct (C10_transferProperty_empty_owner "p1" world_p1
              (json_Marshal_property alice_p1) alice_p1) as (w' & Hrun & Hst & _).
  - reflexivity.
  - exact (read_property_text alice_p1).
  - exists w'. split; [exact Hrun | exact Hst].
Defined.

(** ** The router *)

Lemma Invoke_unknown {go : GoLibrary} (name conditionNum seller buyer : string) (deposit : Z)
    (function : string) (args : list string) (w : world) :
  function ∉ function_names →
  Invoke name conditionNum seller buyer deposit function args w =
    (Error "Received unknown function invocation",
     Println ("invoke did not find func: " +:+ function)
       (Println ("invoke is running " +:+ function) w)).
Proof.
  intros H. unfold function_names in H.
  repeat (apply not_elem_of_cons in H as [? H]).
  unfold Invoke. now rewrite !bool_decide_eq_false_2 by done.
Qed.

(** C6, as the claim has it, fails: the message of the error is the same
    for every unknown name and does not contain the name. *)
Lemma C6_counterexample :
  ("deleteEverything" ∉ function_names) ∧
  (Invoke "p1" "c1" "alice" "bob" 0 "deleteEverything" [] world_p1).1 =
    Error "Received unknown function invocation" ∧
  contains "deleteEverything" "Received unknown function invocation" = false.
Proof.
  split; [| split; vm_compute; reflexivity].
  unfold function_names. intros H.
  repeat (apply elem_of_cons in H as [H | H]; [discriminate |]).
  now apply elem_of_nil in H.
Qed.

(** C6, amended. For every function name other than the five that [Invoke]
    compares with, [Invoke] returns the error "Received unknown function
    invocation", the same message whatever the name, and never a success;
    the ledger is left as it was; the name is reported on standard output
    only, in the line "invoke did not find func: " followed by the name. *)
Theorem C6_unknown_function {go : GoLibrary} (name conditionNum seller buyer : string) (deposit : Z)
    (function : string) (args : list string) (w : world) :
  function ∉ function_names →
  let r := Invoke name conditionNum seller buyer deposit function args w in
  r.1 = Error "Received unknown function invocation" ∧
  State r.2 = State w ∧
  Stdout r.2 =
    Stdout w ++ ["invoke is running " +:+ function;
                 "invoke did not find func: " +:+ function].
Proof.
  intros H r. subst r. rewrite Invoke_unknown by exact H.
  simpl. split; [reflexivity |]. split; [reflexivity |].
  now rewrite <- app_assoc.
Qed.

Lemma C6_witness :
  let r := Invoke "p1" "c1" "alice" "bob" 0 "deleteEverything" [] world_p1 in
  r.1 = Error "Received unknown function invocation" ∧
  State r.2 = State world_p1 ∧
  Stdout r.2 =
    ["invoke is running deleteEverything"; "invoke did not find func: deleteEverything"].
Proof.
  apply (C6_unknown_function "p1" "c1" "alice" "bob" 0 "deleteEverything" [] world_p1).
  unfold function_names. intros H.
  repeat (apply elem_of_cons in H as [H | H]; [discriminate |]).
  now apply elem_of_nil in H.
Defined.

(** C7, as the claim has it, fails: the names "initCondition" and
    "createContract" are not among those [Invoke] compares with, and an
    invocation under either, with valid arguments, is refused. *)
Lemma C7_counterexample :
  (Invoke "p1" "c1" "alice" "bob" 0 "initCondition"
     ["c1"; "p1"; "alice"; "bob"; "5000000"] world_p1).1 =
    Error "Received unknown function invocation" ∧
  (Invoke "p1" "c1" "alice" "bob" 0 "createContract" ["k1"; "c1"] world_p1).1 =
    Error "Received unknown function invocation".
Proof. split; vm_compute; reflexivity. Qed.

(** C7, amended. The router knows the five names initProperty,
    initConditon, CreateContract, transferProperty and readValue, spelled as
    in the source, and no other: under each of them [Invoke] runs the
    operation of that name on the arguments, and under any other name it
    returns the error of an unknown function. An invocation of
    "initConditon" with five non-empty arguments of which the fifth is a
    number succeeds, and so does one of "CreateContract" with two non-empty
    arguments. *)
Theorem C7_router {go : GoLibrary} (name conditionNum seller buyer : string) (deposit : Z)
    (function : string) (args : list string) (w : world) :
  let invoke := Invoke name conditionNum seller buyer deposit in
  let running f := Println ("invoke is running " +:+ f) w in
  invoke "initProperty" args w = initProperty args (running "initProperty") ∧
  invoke "initConditon" args w = initConditon args (running "initConditon") ∧
  invoke "CreateContract" args w =
    CreateContract conditionNum seller buyer deposit args (running "CreateContract") ∧
  invoke "transferProperty" args w = transferProperty args (running "transferProperty") ∧
  invoke "readValue" args w = readValue name args (running "readValue") ∧
  (function ∉ function_names →
   (invoke function args w).1 = Error "Received unknown function invocation") ∧
  (∀ a b c d e n,
     a ≠ "" → b ≠ "" → c ≠ "" → d ≠ "" → Atoi e = Some n →
     (invoke "initConditon" [a; b; c; d; e] w).1 = Success None) ∧
  (∀ a b,
     a ≠ "" → b ≠ "" → (invoke "CreateContract" [a; b] w).1 = Success None).
Proof.
  intros invoke running. subst invoke running.
  do 5 (split; [reflexivity |]). split; [| split].
  - intros H. now rewrite Invoke_unknown by exact H.
  - intros a b c d e n Ha Hb Hc Hd He.
    change (Invoke name conditionNum seller buyer deposit "initConditon"
              [a; b; c; d; e] w)
      with (initConditon [a; b; c; d; e] (Println "invoke is running initConditon" w)).
    destruct (initConditon_valid a b c d e n
                (Println "invoke is running initConditon" w)) as (w' & -> & _);
      done.
  - intros a b Ha Hb.
    change (Invoke name conditionNum seller buyer deposit "CreateContract" [a; b] w)
      with (CreateContract conditionNum seller buyer deposit [a; b]
              (Println "invoke is running CreateContract" w)).
    destruct (CreateContract_valid conditionNum seller buyer deposit a b
                (Println "invoke is running CreateContract" w)) as (w' & -> & _);
      done.
Qed.

Lemma C7_witness :
  (Invoke "p1" "c1" "alice" "bob" 0 "initConditon"
     ["c1"; "p1"; "alice"; "bob"; "5000000"] world_p1).1 = Success None ∧
  (Invoke "p1" "c1" "alice" "bob" 0 "CreateContract" ["k1"; "c1"] world_p1).1 =
    Success None.
Proof.
  destruct (C7_router "p1" "c1" "alice" "bob" 0 "initCondition" [] world_p1)
    as (_ & _ & _ & _ & _ & _ & Hcond & Hcontract).
  split.
  - apply (Hcond "c1" "p1" "alice" "bob" "5000000" 5000000%Z);
      first [discriminate | reflexivity].
  - apply Hcontract; discriminate.
Defined.

(** C8. The identifier is not lower-cased by [transferProperty]: after
    [initProperty] with the identifier "P1", which stores the property under
    "p1", [transferProperty] with the same "P1" finds no property and writes
    nothing. *)
Theorem C8_transferProperty_key_case :
  let w1 := (initProperty ["P1"; "Islab"; "Seoul"; "Alice"] (World ∅ [])).2 in
  (initProperty ["P1"; "Islab"; "Seoul"; "Alice"] (World ∅ [])).1 = Success None ∧
  State w1 !! "p1" = Some (json_Marshal_property alice_p1) ∧
  ToLower "P1" = "p1" ∧
  (transferProperty ["P1"; "bob"] w1).1 = Error "Property does not exist" ∧
  State (transferProperty ["P1"; "bob"] w1).2 = State w1.
Proof. repeat split; vm_compute; reflexivity. Qed.

(** C9, as the claim has it, fails: a deposit below zero is accepted and
    stored. *)
Lemma C9_counterexample :
  Atoi "-5" = Some (-5)%Z ∧
  (initConditon ["c1"; "p1"; "alice"; "bob"; "-5"] world_p1).1 = Success None ∧
  State (initConditon ["c1"; "p1"; "alice"; "bob"; "-5"] world_p1).2 !! "c1" =
    Some (json_Marshal_condition
            (ConditionOfContract "condition" "c1" "p1" "alice" "bob" (-5))).
Proof. repeat split; vm_compute; reflexivity. Qed.

(** C9, amended. [initConditon] requires its deposit argument to be read as
    an integer by [strconv.Atoi]: a call whose fifth argument is not a
    number returns a validation error and writes nothing, and that error is
    "5th argument must be a numeric string" when the call has five
    arguments, none of them empty. The sign of the number is not checked: a
    deposit below zero is stored as any other. *)
Theorem C9_deposit_is_a_number {go : GoLibrary} (args : list string) (w : world) :
  (Atoi (arg args 4) = None →
     ValidationError (initConditon args w).1 ∧
     State (initConditon args w).2 = State w) ∧
  (length args = 5 → ¬ some_empty 5 args → Atoi (arg args 4) = None →
     (initConditon args w).1 = Error "5th argument must be a numeric string") ∧
  (∀ a b c d e n,
     a ≠ "" → b ≠ "" → c ≠ "" → d ≠ "" → Atoi e = Some n → (n < 0)%Z →
     ∃ w', initConditon [a; b; c; d; e] w = (Success None, w') ∧
       State w' !! ToLower a =
         Some (json_Marshal_condition
                 (ConditionOfContract "condition" (ToLower a) (ToLower b)
                    (ToLower c) (ToLower d) n))).
Proof.
  split; [| split].
  - intros H.
    destruct (initConditon_invalid args w) as (m & w' & -> & Hm & Hs); [tauto |].
    split; [exists m; done | exact Hs].
  - intros Hlen Hne H. unfold initConditon.
    rewrite bool_decide_eq_false_2 by (intros ?; done).
    repeat (case_bool_decide as Hi;
            [exfalso; apply Hne; apply len_le_0 in Hi;
             first [ by exists 0; split; [lia | exact Hi]
                   | by exists 1; split; [lia | exact Hi]
                   | by exists 2; split; [lia | exact Hi]
                   | by exists 3; split; [lia | exact Hi]
                   | by exists 4; split; [lia | exact Hi] ] | clear Hi]).
    now rewrite H.
  - intros a b c d e n Ha Hb Hc Hd He _.
    destruct (initConditon_valid a b c d e n w) as (w' & Hrun & Hst); try done.
    exists w'. split; [exact Hrun |]. rewrite Hst. apply lookup_insert_eq.
Qed.

Lemma C9_witness :
  (ValidationError (initConditon ["c1"; "p1"; "alice"; "bob"; "notanumber"] world_p1).1 ∧
   State (initConditon ["c1"; "p1"; "alice"; "bob"; "notanumber"] world_p1).2 =
     State world_p1) ∧
  (initConditon ["c1"; "p1"; "alice"; "bob"; "notanumber"] world_p1).1 =
    Error "5th argument must be a numeric string" ∧
  (∃ w', initConditon ["C1"; "p1"; "alice"; "bob"; "-5"] world_p1 = (Success None, w') ∧
     State w' !! "c1" =
       Some (json_Marshal_condition
               (ConditionOfContract "condition" "c1" "p1" "alice" "bob" (-5)))).
Proof.
  destruct (C9_deposit_is_a_number ["c1"; "p1"; "alice"; "bob"; "notanumber"] world_p1)
    as (Hany & Hfive & Hneg).
  split; [| split].
  - apply Hany. reflexivity.
  - apply Hfive; [reflexivity | | reflexivity].
    intros (i & Hi & E). do 5 (destruct i as [|i]; [discriminate |]). lia.
  - apply (Hneg "C1" "p1" "alice" "bob" "-5" (-5)%Z);
      first [discriminate | reflexivity | lia].
Defined.

(** * Further properties of the chaincode *)

(** ** The effect of each operation on the ledger *)

Ltac effect_guard :=
  case_bool_decide; [cbn; apply effect_error |].

Lemma initProperty_effect {go : GoLibrary} (args : list string) (w : world) :
  effect "initProperty" args (State w)
    (initProperty args w).1 (State (initProperty args w).2).
Proof.
  unfold initProperty. effect_guard.
  case_bool_decide as H0; [cbn; apply effect_error |].
  do 3 effect_guard. cbn.
  apply effect_create; [set_solver |].
  intros E. apply H0. rewrite E. simpl. lia.
Qed.

Lemma initConditon_effect {go : GoLibrary} (args : list string) (w : world) :
  effect "initConditon" args (State w)
    (initConditon args w).1 (State (initConditon args w).2).
Proof.
  unfold initConditon. effect_guard.
  case_bool_decide as H0; [cbn; apply effect_error |].
  do 4 effect_guard.
  destruct (Atoi (arg args 4)) as [deposit|]; cbn; [| apply effect_error].
  apply effect_create; [set_solver |].
  intros E. apply H0. rewrite E. simpl. lia.
Qed.

Lemma CreateContract_effect {go : GoLibrary} (conditionNum seller buyer : string) (deposit : Z)
    (args : list string) (w : world) :
  effect "CreateContract" args (State w)
    (CreateContract conditionNum seller buyer deposit args w).1
    (State (CreateContract conditionNum seller buyer deposit args w).2).
Proof.
  unfold CreateContract. effect_guard.
  case_bool_decide as H0; [cbn; apply effect_error |].
  effect_guard. cbn.
  apply effect_create; [set_solver |].
  intros E. apply H0. rewrite E. simpl. lia.
Qed.

Lemma transferProperty_effect {go : GoLibrary} (args : list string) (w : world) :
  effect "transferProperty" args (State w)
    (transferProperty args w).1 (State (transferProperty args w).2).
Proof.
  unfold transferProperty. effect_guard.
  unfold GetState, Println3. rewrite Println_State.
  destruct (State w !! arg args 0) as [bytes|] eqn:Hk; [| cbn; apply effect_error].
  destruct (json_Unmarshal_marble bytes) as [p|]; cbn; [| apply effect_error].
  apply effect_update; [reflexivity | rewrite Hk; eauto].
Qed.

Lemma readValue_effect {go : GoLibrary} (name : string) (args : list string) (w : world) :
  effect "readValue" args (State w)
    (readValue name args w).1 (State (readValue name args w).2).
Proof.
  unfold readValue. case_bool_decide as Hlen; [cbn; apply effect_error |].
  unfold GetState.
  destruct (State w !! arg args 0) as [v|] eqn:Hk; cbn; [| apply effect_error].
  apply effect_read; [reflexivity | | exact Hk].
  destruct (decide (length args = 1)); [done | contradiction].
Qed.

Lemma Invoke_effect {go : GoLibrary} (name conditionNum seller buyer : string) (deposit : Z)
    (function : string) (args : list string) (w : world) :
  effect function args (State w)
    (Invoke name conditionNum seller buyer deposit function args w).1
    (State (Invoke name conditionNum seller buyer deposit function args w).2).
Proof.
  unfold Invoke.
  set (w0 := Println ("invoke is running " +:+ function) w).
  change (State w) with (State w0).
  case_bool_decide as Hp; [rewrite Hp; apply initProperty_effect |].
  case_bool_decide as Hc; [rewrite Hc; apply initConditon_effect |].
  case_bool_decide as Hk; [rewrite Hk; apply CreateContract_effect |].
  case_bool_decide as Ht; [rewrite Ht; apply transferProperty_effect |].
  case_bool_decide as Hr; [rewrite Hr; apply readValue_effect |].
  cbn. apply effect_error.
Qed.

Lemma transferProperty_success {go : GoLibrary} (k o : string) (more : list string) (w w1 : world) :
  transferProperty (k :: o :: more) w = (Success None, w1) →
  ∃ bytes p,
    State w !! k = Some bytes ∧ json_Unmarshal_marble bytes = Some p ∧
    State w1 = <[k := json_Marshal_property (set_Owner p (ToLower o))]> (State w).
Proof.
  unfold transferProperty, arg. simpl nth.
  rewrite bool_decide_eq_false_2 by (simpl; lia).
  unfold GetState, Println3. rewrite Println_State.
  destruct (State w !! k) as [bytes|] eqn:Hk; [| discriminate].
  destruct (json_Unmarshal_marble bytes) as [p|] eqn:Hp; [| discriminate].
  cbn. intros [= <-]. exists bytes, p. cbn. done.
Qed.

Lemma effect_invariant {go : GoLibrary} (function : string) (args : list string)
    (st st' : gmap string string) (r : Response) :
  effect function args st r st' →
  (∀ k, is_Some (st !! k) → ∃ a, a ≠ "" ∧ k = ToLower a) →
  ∀ k, is_Some (st' !! k) → ∃ a, a ≠ "" ∧ k = ToLower a.
Proof.
  destruct 1 as [m | v0 _ _ _ | v0 _ Hne | v0 _ Hsome];
    intros IH k Hk; try (now apply IH).
  - destruct (decide (ToLower (arg args 0) = k)) as [<- | Hne'].
    + now exists (arg args 0).
    + rewrite lookup_insert_ne in Hk by done. now apply IH.
  - destruct (decide (arg args 0 = k)) as [<- | Hne'].
    + now apply IH.
    + rewrite lookup_insert_ne in Hk by done. now apply IH.
Qed.

Lemma reachable_invariant {go : GoLibrary} (w : world) :
  reachable w →
  ∀ k, is_Some (State w !! k) → ∃ a, a ≠ "" ∧ k = ToLower a.
Proof.
  induction 1 as [| name cn s b d f args w Hw IH].
  - intros k [v Hk]. cbn in Hk. now rewrite lookup_empty in Hk.
  - eapply effect_invariant; [apply Invoke_effect | exact IH].
Qed.


Lemma effect_keeps {go : GoLibrary} (function : string) (args : list string)
    (st st' : gmap string string) (r : Response) (k : string) :
  effect function args st r st' → is_Some (st !! k) → is_Some (st' !! k).
Proof.
  destruct 1; intros Hk; try done; rewrite lookup_insert_is_Some;
    match goal with
    | |- ?a = k ∨ _ => destruct (decide (a = k)); [now left | now right]
    end.
Qed.

(** ** What an invocation does and does not do *)

(** X1. An invocation that returns an error has written nothing: the ledger
    is the one it started from, whatever the function name and the
    arguments. *)
Theorem Invoke_error_writes_nothing {go : GoLibrary}
    (name conditionNum seller buyer : string) (deposit : Z)
    (function : string) (args : list string) (w : world) (m : string) :
  (Invoke name conditionNum seller buyer deposit function args w).1 = Error m →
  State (Invoke name conditionNum seller buyer deposit function args w).2 = State w.
Proof.
  intros Hr.
  pose proof (Invoke_effect name conditionNum seller buyer deposit function args w) as He.
  rewrite Hr in He. now inversion He.
Qed.

Lemma Invoke_error_writes_nothing_witness :
  State (Invoke "p1" "c1" "alice" "bob" 0 "initConditon"
           ["c1"; "p1"; "alice"; "bob"; "notanumber"] world_p1).2 = State world_p1.
Proof.
  apply (Invoke_error_writes_nothing "p1" "c1" "alice" "bob" 0 "initConditon"
           ["c1"; "p1"; "alice"; "bob"; "notanumber"] world_p1
           "5th argument must be a numeric string").
  reflexivity.
Defined.



(** X3. No invocation deletes: a key that holds a value before an invocation
    holds one after it. *)
Theorem Invoke_never_deletes {go : GoLibrary}
    (name conditionNum seller buyer : string) (deposit : Z)
    (function : string) (args : list string) (w : world) (k : string) :
  is_Some (State w !! k) →
  is_Some (State (Invoke name conditionNum seller buyer deposit function args w).2 !! k).
Proof.
  intros Hk. eapply effect_keeps; [apply Invoke_effect | done].
Qed.

Lemma Invoke_never_deletes_witness :
  is_Some (State (Invoke "p1" "c1" "alice" "bob" 0 "transferProperty"
                    ["p1"; "bob"] world_p1).2 !! "p1").
Proof.
  apply (Invoke_never_deletes "p1" "c1" "alice" "bob" 0 "transferProperty"
           ["p1"; "bob"] world_p1 "p1").
  eexists. reflexivity.
Defined.

(** X4. A payload comes from [readValue] only, and it is the value stored
    under the one argument: when an invocation returns a success with a
    payload, the function is "readValue", it has one argument, the payload
    is the value the ledger holds under it, and the ledger is unchanged. *)
Theorem Invoke_payload_is_stored_value {go : GoLibrary}
    (name conditionNum seller buyer : string) (deposit : Z)
    (function : string) (args : list string) (w : world) (v : string) :
  (Invoke name conditionNum seller buyer deposit function args w).1 = Success (Some v) →
  function = "readValue" ∧ length args = 1 ∧
  State w !! arg args 0 = Some v ∧
  State (Invoke name conditionNum seller buyer deposit function args w).2 = State w.
Proof.
  intros Hr.
  pose proof (Invoke_effect name conditionNum seller buyer deposit function args w) as He.
  rewrite Hr in He. now inversion He.
Qed.

Lemma Invoke_payload_is_stored_value_witness :
  "readValue" = "readValue" ∧ length ["p1"] = 1 ∧
  State world_p1 !! arg ["p1"] 0 = Some (json_Marshal_property alice_p1) ∧
  State (Invoke "p1" "c1" "alice" "bob" 0 "readValue" ["p1"] world_p1).2 =
    State world_p1.
Proof.
  apply (Invoke_payload_is_stored_value "p1" "c1" "alice" "bob" 0 "readValue"
           ["p1"] world_p1 (json_Marshal_property alice_p1)).
  reflexivity.
Defined.

(** ** Reading *)

(** X5. [readValue] only reads: it leaves the world as it is, standard
    output included; it returns a payload exactly when it has one argument
    and the ledger holds a value under it, and the payload is that value;
    it never returns a success without payload. *)
Theorem readValue_reads_only (name : string) (args : list string) (w : world) :
  (readValue name args w).2 = w ∧
  (∀ v, (readValue name args w).1 = Success (Some v) ↔
        length args = 1 ∧ State w !! arg args 0 = Some v) ∧
  (readValue name args w).1 ≠ Success None.
Proof.
  unfold readValue, GetState.
  case_bool_decide as Hlen;
    [| destruct (State w !! arg args 0) as [v0|] eqn:Hk]; cbn;
    (split; [reflexivity |]); (split; [| discriminate]); intros v;
    split; try discriminate; try (intros [? ?]; congruence).
  - intros [= <-]. split; [| reflexivity].
    destruct (decide (length args = 1)); [done | contradiction].
Qed.


(** X7. A condition and a contract are read back under their lower-cased
    identifier: after [initConditon] with four non-empty arguments and a
    numeric fifth, and after [CreateContract] with two non-empty arguments,
    [readValue] of the lower-cased first argument returns the document that
    the operation built. *)
Theorem readValue_after_create {go : GoLibrary} (name conditionNum seller buyer : string) (deposit : Z)
    (a b c d e : string) (n : Z) (w : world) :
  a ≠ "" → b ≠ "" →
  (c ≠ "" → d ≠ "" → Atoi e = Some n →
   ∃ w', initConditon [a; b; c; d; e] w = (Success None, w') ∧
     readValue name [ToLower a] w' =
       (Success (Some (json_Marshal_condition
                         (ConditionOfContract "condition" (ToLower a) (ToLower b)
                            (ToLower c) (ToLower d) n))), w')) ∧
  (∃ w', CreateContract conditionNum seller buyer deposit [a; b] w = (Success None, w') ∧
     readValue name [ToLower a] w' =
       (Success (Some (json_Marshal_condition
                         (ConditionOfContract "contract" conditionNum (ToLower b)
                            seller buyer deposit))), w')).
Proof.
  intros Ha Hb. split.
  - intros Hc Hd He.
    destruct (initConditon_valid a b c d e n w) as (w' & Hrun & Hst); try done.
    exists w'. split; [exact Hrun |].
    apply readValue_found. rewrite Hst. apply lookup_insert_eq.
  - destruct (CreateContract_valid conditionNum seller buyer deposit a b w)
      as (w' & Hrun & Hst); try done.
    exists w'. split; [exact Hrun |].
    apply readValue_found. rewrite Hst. apply lookup_insert_eq.
Qed.

Lemma readValue_after_create_witness :
  ∃ w', initConditon ["C1"; "P1"; "Alice"; "Bob"; "5000000"] world_p1 = (Success None, w') ∧
    readValue "c1" [ToLower "C1"] w' =
      (Success (Some (json_Marshal_condition
                        (ConditionOfContract "condition" "c1" "p1" "alice" "bob"
                           5000000))), w').
Proof.
  destruct (readValue_after_create "c1" "c1" "alice" "bob" 0
              "C1" "P1" "Alice" "Bob" "5000000" 5000000 world_p1) as [Hcond _];
    try discriminate.
  apply Hcond; first [discriminate | reflexivity].
Defined.

(** ** Transfers *)

(** X8. A transfer repeated is the transfer done once: after a successful
    [transferProperty] of a key to an owner, a second [transferProperty] of
    the same key to an owner with the same lower-cased form succeeds and
    leaves the ledger as the first one left it. *)
Theorem transferProperty_idempotent {go : GoLibrary} (k o o' : string) (w w1 : world) :
  transferProperty [k; o] w = (Success None, w1) →
  ToLower o' = ToLower o →
  ∃ w2, transferProperty [k; o'] w1 = (Success None, w2) ∧ State w2 = State w1.
Proof.
  intros Hrun Ho.
  destruct (transferProperty_success k o [] w w1 Hrun) as (bytes & p & Hk & Hp & Hst).
  destruct (transferProperty_found k o' [] w1
              (json_Marshal_property (set_Owner p (ToLower o)))
              (set_Owner p (ToLower o))) as (w2 & Hrun2 & Hst2).
  - rewrite Hst. apply lookup_insert_eq.
  - apply json_Unmarshal_Marshal.
    eapply valid_new_owner; [exact Hp | apply ValidString_ToLower].
  - exists w2. split; [exact Hrun2 |].
    rewrite Hst2, Ho, Hst. cbn. apply insert_insert_eq.
Qed.

Lemma transferProperty_idempotent_witness :
  ∃ w2, transferProperty ["p1"; "BOB"] (transferProperty ["p1"; "Bob"] world_p1).2 =
          (Success None, w2) ∧
    State w2 = State (transferProperty ["p1"; "Bob"] world_p1).2.
Proof.
  apply (transferProperty_idempotent "p1" "Bob" "BOB" world_p1
           (transferProperty ["p1"; "Bob"] world_p1).2); reflexivity.
Defined.

(** X9. [transferProperty] creates no key and removes none: whatever its
    arguments and its result, the keys of the ledger after it are those
    before it. *)
Theorem transferProperty_keeps_keys {go : GoLibrary} (args : list string) (w : world) :
  dom (State (transferProperty args w).2) = dom (State w).
Proof.
  unfold transferProperty. case_bool_decide; [reflexivity |].
  unfold GetState, Println3. rewrite Println_State.
  destruct (State w !! arg args 0) as [bytes|] eqn:Hk; [| reflexivity].
  destruct (json_Unmarshal_marble bytes) as [p|]; cbn; [| reflexivity].
  rewrite dom_insert_L. apply elem_of_dom_2 in Hk.
  apply subseteq_union_1_L, singleton_subseteq_l, Hk.
Qed.

(** X10. The arguments of [transferProperty] after the second are not
    looked at: with them the call does what it does on the first two. *)
Theorem transferProperty_ignores_extra_arguments {go : GoLibrary}
    (k o : string) (more : list string) (w : world) :
  transferProperty (k :: o :: more) w = transferProperty [k; o] w.
Proof.
  unfold transferProperty, arg. simpl nth.
  now rewrite !bool_decide_eq_false_2 by (simpl; lia).
Qed.

(** ** Writes *)

Lemma effect_success {go : GoLibrary} (function : string) (args : list string)
    (st st' : gmap string string) :
  effect function args st (Success None) st' →
  function ∈ ["initProperty"; "initConditon"; "CreateContract"; "transferProperty"] ∧
  ∃ k v, (k = ToLower (arg args 0) ∨ k = arg args 0) ∧ st' = <[k := v]> st.
Proof.
  inversion 1 as [| | v Hf Hne | v Hf Hsome]; subst.
  - split; [| exists (ToLower (arg args 0)), v; auto].
    repeat (apply elem_of_cons in Hf as [-> | Hf]; [repeat constructor |]).
    now apply elem_of_nil in Hf.
  - split; [| exists (arg args 0), v; auto].
    repeat constructor.
Qed.

(** X11. A success without payload is a write that can be read back: when an
    invocation returns one, the function is one of initProperty,
    initConditon, CreateContract and transferProperty, the ledger differs
    from the one before by one value, stored under the first argument or
    the lower-cased first argument, and [readValue] of that key returns the
    value. *)
Theorem successful_write_is_readable {go : GoLibrary}
    (name conditionNum seller buyer : string) (deposit : Z)
    (function : string) (args : list string) (w : world) :
  let w' := (Invoke name conditionNum seller buyer deposit function args w).2 in
  (Invoke name conditionNum seller buyer deposit function args w).1 = Success None →
  function ∈ ["initProperty"; "initConditon"; "CreateContract"; "transferProperty"] ∧
  ∃ k v, (k = ToLower (arg args 0) ∨ k = arg args 0) ∧
    State w' = <[k := v]> (State w) ∧
    readValue name [k] w' = (Success (Some v), w').
Proof.
  intros w' Hr.
  pose proof (Invoke_effect name conditionNum seller buyer deposit function args w) as He.
  rewrite Hr in He. apply effect_success in He as (Hf & k & v & Hk & Hst).
  split; [exact Hf |]. exists k, v. repeat (split; [done |]).
  apply readValue_found. subst w'. rewrite Hst. apply lookup_insert_eq.
Qed.

Lemma successful_write_is_readable_witness :
  let w' := (Invoke "p1" "c1" "alice" "bob" 0 "transferProperty"
               ["p1"; "Bob"] world_p1).2 in
  "transferProperty" ∈
    ["initProperty"; "initConditon"; "CreateContract"; "transferProperty"] ∧
  ∃ k v, (k = ToLower (arg ["p1"; "Bob"] 0) ∨ k = arg ["p1"; "Bob"] 0) ∧
    State w' = <[k := v]> (State world_p1) ∧
    readValue "p1" [k] w' = (Success (Some v), w').
Proof.
  apply (successful_write_is_readable "p1" "c1" "alice" "bob" 0 "transferProperty"
           ["p1"; "Bob"] world_p1).
  reflexivity.
Defined.

(** X12. Create, transfer, read: after [initProperty] with four non-empty
    arguments whose first is its own lower-cased form, [transferProperty] of
    that identifier to a new owner succeeds, and [readValue] of the
    identifier then returns the property with the name and the address it
    was created with and the lower-cased new owner. *)
Theorem init_transfer_read {go : GoLibrary} (name a b c d o : string) (w : world) :
  a ≠ "" → b ≠ "" → c ≠ "" → d ≠ "" → ToLower a = a →
  ∃ w1 w2,
    initProperty [a; b; c; d] w = (Success None, w1) ∧
    transferProperty [a; o] w1 = (Success None, w2) ∧
    readValue name [a] w2 =
      (Success (Some (json_Marshal_property
                        (Property "property" a (ToLower b) (ToLower c) (ToLower o)))),
       w2).
Proof.
  intros Ha Hb Hc Hd Hlow.
  destruct (initProperty_valid a b c d w) as (w1 & Hrun1 & Hst1); try done.
  rewrite Hlow in Hst1.
  destruct (transferProperty_found a o [] w1
              (json_Marshal_property
                 (Property "property" a (ToLower b) (ToLower c) (ToLower d)))
              (Property "property" a (ToLower b) (ToLower c) (ToLower d)))
    as (w2 & Hrun2 & Hst2).
  - rewrite Hst1. apply lookup_insert_eq.
  - apply json_Unmarshal_Marshal. rewrite <- Hlow at 1. apply valid_lowered.
  - exists w1, w2. split; [exact Hrun1 |]. split; [exact Hrun2 |].
    apply readValue_found. rewrite Hst2. apply lookup_insert_eq.
Qed.

Lemma init_transfer_read_witness :
  ∃ w1 w2,
    initProperty ["p7"; "Islab"; "Seoul"; "Alice"] world_p1 = (Success None, w1) ∧
    transferProperty ["p7"; "Bob"] w1 = (Success None, w2) ∧
    readValue "p7" ["p7"] w2 =
      (Success (Some (json_Marshal_property
                        (Property "property" "p7" "islab" "seoul" "bob"))), w2).
Proof.
  exact (init_transfer_read "p7" "p7" "Islab" "Seoul" "Alice" "Bob" world_p1
           ltac:(discriminate) ltac:(discriminate) ltac:(discriminate)
           ltac:(discriminate) eq_refl).
Defined.

(** X13. The last creation wins, and identifiers with the same lower-cased
    form are the same identifier for it: [initProperty] after another
    [initProperty] whose first argument has the same lower-cased form leaves
    the ledger that it leaves when run alone. *)
Theorem last_initProperty_wins {go : GoLibrary} (a b c d a' b' c' d' : string) (w : world) :
  a ≠ "" → b ≠ "" → c ≠ "" → d ≠ "" →
  a' ≠ "" → b' ≠ "" → c' ≠ "" → d' ≠ "" →
  ToLower a = ToLower a' →
  State (initProperty [a'; b'; c'; d'] (initProperty [a; b; c; d] w).2).2 =
    State (initProperty [a'; b'; c'; d'] w).2.
Proof.
  intros Ha Hb Hc Hd Ha' Hb' Hc' Hd' Hkey.
  destruct (initProperty_valid a b c d w) as (w1 & E1 & Hst1); try done.
  rewrite E1. cbn [snd].
  destruct (initProperty_valid a' b' c' d' w1) as (w2 & -> & Hst2); try done.
  destruct (initProperty_valid a' b' c' d' w) as (w3 & -> & Hst3); try done.
  cbn [snd]. rewrite Hst2, Hst3, Hst1, Hkey. apply insert_insert_eq.
Qed.

Lemma last_initProperty_wins_witness :
  State (initProperty ["p1"; "annex"; "busan"; "carol"]
           (initProperty ["P1"; "Islab"; "Seoul"; "Alice"] world_p1).2).2 =
    State (initProperty ["p1"; "annex"; "busan"; "carol"] world_p1).2.
Proof.
  exact (last_initProperty_wins "P1" "Islab" "Seoul" "Alice"
           "p1" "annex" "busan" "carol" world_p1
           ltac:(discriminate) ltac:(discriminate) ltac:(discriminate)
           ltac:(discriminate) ltac:(discriminate) ltac:(discriminate)
           ltac:(discriminate) ltac:(discriminate) eq_refl).
Defined.

(** ** Invariants of the reachable worlds *)

(** X14. Every key of a reachable ledger is the lower-cased form of a
    non-empty string, the first argument of the create operation that wrote
    it: the chaincode writes under no other key. *)
Theorem reachable_keys_normalized {go : GoLibrary} (w : world) (k : string) :
  reachable w → is_Some (State w !! k) → ∃ a, a ≠ "" ∧ k = ToLower a.
Proof. intros Hw Hk. exact (reachable_invariant w Hw k Hk). Qed.

Lemma reachable_keys_normalized_witness :
  ∃ a, a ≠ "" ∧ "p1" = ToLower a.
Proof.
  refine (reachable_keys_normalized
            (Invoke "p1" "c1" "alice" "bob" 0 "initProperty"
               ["P1"; "Islab"; "Seoul"; "Alice"] (Init (World ∅ [])).2).2 "p1" _ _).
  - exact (reachable_Invoke _ _ _ _ _ _ _ _ reachable_Init).
  - eexists. vm_compute. reflexivity.
Defined.

Lemma lower_byte_not_upper (c : ascii) : is_upper (lower_byte c) = false.
Proof. destruct c as [[] [] [] [] [] [] [] []]; reflexivity. Qed.

(** X15. On a reachable ledger an identifier that is not the lower-cased
    form of a non-empty string is never found: [transferProperty] of it
    returns "Property does not exist" and [readValue] of it returns the
    error of a value that does not exist, whatever has been created
    before. *)
Theorem unnormalized_identifier_not_found {go : GoLibrary}
    (name k o : string) (more : list string) (w : world) :
  reachable w → (∀ a, a ≠ "" → ToLower a ≠ k) →
  (transferProperty (k :: o :: more) w).1 = Error "Property does not exist" ∧
  (readValue name [k] w).1 = Error (jsonResp name "Value does not exist: ").
Proof.
  intros Hw Hk.
  assert (State w !! k = None) as Hnone.
  { destruct (State w !! k) as [v|] eqn:E; [| reflexivity].
    destruct (reachable_invariant w Hw k) as (a & Ha & Hka); [rewrite E; eauto |].
    now destruct (Hk a Ha). }
  split.
  - destruct (transferProperty_absent k o more w Hnone) as (w' & -> & _). reflexivity.
  - now rewrite readValue_absent.
Qed.

Lemma unnormalized_identifier_not_found_witness :
  let w := (Invoke "p1" "c1" "alice" "bob" 0 "initProperty"
              ["P1"; "Islab"; "Seoul"; "Alice"] (Init (World ∅ [])).2).2 in
  (transferProperty ["P1"; "bob"] w).1 = Error "Property does not exist" ∧
  (readValue "P1" ["P1"] w).1 = Error (jsonResp "P1" "Value does not exist: ").
Proof.
  refine (unnormalized_identifier_not_found "P1" "P1" "bob" [] _ _ _).
  - exact (reachable_Invoke _ _ _ _ _ _ _ _ reachable_Init).
  - intros [|c a] _ E; [discriminate |]. cbn in E.
    injection E as E _. pose proof (lower_byte_not_upper c) as Hc.
    rewrite E in Hc. discriminate.
Defined.

(** ** The router of part_000 *)

(** X18. The router of part_000 knows the names initMarble, transferMarble
    and readMarble only: under any other name it returns the error of an
    unknown function and leaves the ledger as it was, whatever the three
    handlers are; the operations that part_000 declares (initContract,
    readProperty, transferProperty) are among the names it refuses. *)
Theorem Part000_router_refuses
    (initMarble transferMarble readMarble : list string → world → Response * world)
    (function : string) (args : list string) (w : world) :
  (function ∉ Part000.routed_names →
   (Part000.Invoke initMarble transferMarble readMarble function args w).1 =
     Error "Received unknown function invocation" ∧
   State (Part000.Invoke initMarble transferMarble readMarble function args w).2 =
     State w) ∧
  (function ∈ Part000.declared_operations → function ∉ Part000.routed_names).
Proof.
  unfold Part000.routed_names, Part000.declared_operations. split.
  - intros H. repeat (apply not_elem_of_cons in H as [? H]).
    unfold Part000.Invoke. now rewrite !bool_decide_eq_false_2 by done.
  - intros Hd Hr.
    repeat (apply elem_of_cons in Hd as [-> | Hd];
            [repeat (apply elem_of_cons in Hr as [Hr | Hr]; [discriminate |]);
             now apply elem_of_nil in Hr |]).
    now apply elem_of_nil in Hd.
Qed.

Lemma Part000_router_refuses_witness :
  (Part000.Invoke initProperty transferProperty (readValue "p1")
     "transferProperty" ["p1"; "bob"] world_p1).1 =
    Error "Received unknown function invocation" ∧
  State (Part000.Invoke initProperty transferProperty (readValue "p1")
           "transferProperty" ["p1"; "bob"] world_p1).2 = State world_p1.
Proof.
  destruct (Part000_router_refuses initProperty transferProperty (readValue "p1")
              "transferProperty" ["p1"; "bob"] world_p1) as [Hrefuse Hdecl].
  apply Hrefuse, Hdecl. unfold Part000.declared_operations. repeat constructor.
Defined.

(** ** The order of the checks *)

Ltac first_empty Hfirst :=
  repeat case_bool_decide; try reflexivity; exfalso;
  match goal with
  | H : ¬ (len (arg ?args ?i) ≤ 0), E : arg ?args ?i = "" |- _ =>
      apply H; rewrite E; simpl; lia
  | H : len (arg ?args ?j) ≤ 0 |- _ =>
      apply len_le_0 in H; apply (Hfirst j); [lia | exact H]
  end.

(** X19. A create operation that has the right number of arguments reports
    the first empty one: when argument [i] is empty and those before it are
    not, the error is the message of position [i], whatever the arguments
    after it are; for [initConditon] this comes before the check that the
    deposit is a number. *)
Theorem first_empty_argument_is_reported {go : GoLibrary}
    (conditionNum seller buyer : string) (deposit : Z)
    (args : list string) (w : world) (i : nat) :
  arg args i = "" → (∀ j, j < i → arg args j ≠ "") →
  (length args = 4 → i < 4 →
   (initProperty args w).1 = Error (empty_argument_message i)) ∧
  (length args = 5 → i < 5 →
   (initConditon args w).1 = Error (empty_argument_message i)) ∧
  (length args = 2 → i < 2 →
   (CreateContract conditionNum seller buyer deposit args w).1 =
     Error (empty_argument_message i)).
Proof.
  intros Hi Hfirst. repeat split; intros Hlen Hlt.
  - unfold initProperty. rewrite bool_decide_eq_false_2 by (intros ?; done).
    do 4 (destruct i as [|i]; [first_empty Hfirst |]). lia.
  - unfold initConditon. rewrite bool_decide_eq_false_2 by (intros ?; done).
    do 5 (destruct i as [|i]; [first_empty Hfirst |]). lia.
  - unfold CreateContract. rewrite bool_decide_eq_false_2 by (intros ?; done).
    do 2 (destruct i as [|i]; [first_empty Hfirst |]). lia.
Qed.

Lemma first_empty_argument_is_reported_witness :
  (initConditon ["c1"; "p1"; ""; ""; "notanumber"] world_p1).1 =
    Error "3rd argument must be a non-empty string".
Proof.
  destruct (first_empty_argument_is_reported "c1" "alice" "bob" 0
              ["c1"; "p1"; ""; ""; "notanumber"] world_p1 2) as (_ & Hcond & _).
  - reflexivity.
  - intros j Hj. do 2 (destruct j as [|j]; [discriminate |]). lia.
  - apply Hcond; [reflexivity | lia].
Defined.
